(** * Kinetic_Model.py: the kinetic computation engine

    The engine of [InteractiveKineticModel] is three closed-form models
    ([inhibition_model], [pharmacokinetic_model], [population_growth_model]),
    their composition over a time grid ([calculate_kinetic_data]) and the
    derived metrics shown by [update_results].

    The file has two readings of the arithmetic.

    - [Module Py] keeps Python's numbers as the interpreter has them: [int],
      [float] and numpy's [float64], IEEE binary64 with round-to-nearest-even
      (the Standard Library's [SpecFloat], which computes), and the exceptions
      that Python's operators raise.  It decides what is raised, how many
      samples [np.arange] yields and which strings are displayed.  It also
      holds the window around the engine: the curves and figures that
      [update_plots] fills, the message boxes, the files of [export_data]
      and the timers of [on_parameter_change], with the events that drive
      them.  Drawing itself (matplotlib, Tk widgets) is outside the model
      and is taken to succeed.
    - [Module Ideal] reads the three formulas over the real numbers.  It
      carries the analytic laws (boundary values, monotonicity, limits),
      which rounding only approximates. *)

From Stdlib Require Import ZArith List String Ascii Bool Lia DecimalString.
From Stdlib Require Import Floats.SpecFloat.
From Stdlib Require Import Reals Lra.
Import ListNotations.

Module Py.

Local Open Scope Z_scope.

(** ** IEEE binary64 *)

Definition float64 : Type := spec_float.

Definition prec : Z := 53.
Definition emax : Z := 1024.

Definition fadd : float64 -> float64 -> float64 := SFadd prec emax.
Definition fsub : float64 -> float64 -> float64 := SFsub prec emax.
Definition fmul : float64 -> float64 -> float64 := SFmul prec emax.
Definition fdiv : float64 -> float64 -> float64 := SFdiv prec emax.
Definition fopp : float64 -> float64 := SFopp.

(** [x == 0.0] in C: both signed zeros, and nothing else. *)
Definition is_zero (x : float64) : bool :=
  match x with S754_zero _ => true | _ => false end.

Definition is_nan (x : float64) : bool :=
  match x with S754_nan => true | _ => false end.

Definition is_finite (x : float64) : bool :=
  match x with S754_zero _ | S754_finite _ _ _ => true | _ => false end.

(** An integer as an exact, unrounded binary number; an operand for the one
    rounding of a quotient of integers. *)
Definition exact (z : Z) : float64 :=
  match z with
  | Z0 => S754_zero false
  | Zpos p => S754_finite false p 0
  | Zneg p => S754_finite true p 0
  end.

(** C's conversion of an integer to a double (round to nearest even). *)
Definition of_int (z : Z) : float64 := binary_normalize prec emax z 0 false.

(** The decimal literal [m / 10^k], rounded once, as Python reads it. *)
Definition dec (m : Z) (k : nat) : float64 :=
  fdiv (exact m) (exact (10 ^ Z.of_nat k)).

(** [ceil] of a finite double, as an integer. *)
Definition ceil (x : float64) : option Z :=
  match x with
  | S754_zero _ => Some 0
  | S754_finite s m e =>
      let v := match e with
               | Zneg p =>
                   let d := Z.pow_pos 2 p in
                   if s then - (Zpos m / d) else (Zpos m + d - 1) / d
               | _ => (if s then Zneg m else Zpos m) * 2 ^ e
               end in
      Some v
  | _ => None
  end.

(** ** Python's numbers and exceptions *)

Inductive exn : Type :=
  | ZeroDivisionError
  | OverflowError
  | ValueError.

(** A computation returns a value or raises. *)
Definition res (A : Type) : Type := (exn + A)%type.

Definition ret {A : Type} (a : A) : res A := inr a.
Definition raise {A : Type} (e : exn) : res A := inl e.

Definition bind {A B : Type} (c : res A) (k : A -> res B) : res B :=
  match c with
  | inl e => inl e
  | inr a => k a
  end.

Notation "x <- c ;; k" := (bind c (fun x => k))
  (at level 61, c at next level, right associativity).

(** The three kinds of number the program handles: a Python [int], a Python
    [float] (what [DoubleVar.get] returns, what a literal such as [1e6] is),
    and numpy's scalar [float64] (what [np.exp] returns, what iterating an
    array yields). *)
Inductive num : Type :=
  | PyInt (n : Z)
  | PyFloat (x : float64)
  | NpFloat64 (x : float64).

Definition is_np (v : num) : bool :=
  match v with NpFloat64 _ => true | _ => false end.

(** The double behind a number; an [int] too large for a double raises. *)
Definition as_float (v : num) : res float64 :=
  match v with
  | PyInt n =>
      let x := of_int n in
      if is_finite x then ret x else raise OverflowError
  | PyFloat x => ret x
  | NpFloat64 x => ret x
  end.

(** The result of a float operation is numpy's as soon as one operand is. *)
Definition wrap (a b : num) (x : float64) : num :=
  if is_np a || is_np b then NpFloat64 x else PyFloat x.

Definition arith (iop : Z -> Z -> Z) (fop : float64 -> float64 -> float64)
    (a b : num) : res num :=
  match a, b with
  | PyInt m, PyInt n => ret (PyInt (iop m n))
  | _, _ =>
      x <- as_float a ;;
      y <- as_float b ;;
      ret (wrap a b (fop x y))
  end.

Definition py_add : num -> num -> res num := arith Z.add fadd.
Definition py_sub : num -> num -> res num := arith Z.sub fsub.
Definition py_mul : num -> num -> res num := arith Z.mul fmul.

Definition py_neg (a : num) : num :=
  match a with
  | PyInt n => PyInt (- n)
  | PyFloat x => PyFloat (fopp x)
  | NpFloat64 x => NpFloat64 (fopp x)
  end.

(** [a / b].  Between Python numbers a zero divisor raises
    [ZeroDivisionError]; the quotient of two [int]s is rounded once and
    raises [OverflowError] when it exceeds the doubles.  When an operand is a
    numpy [float64] the division is the IEEE one: a zero divisor gives an
    infinity or a NaN (and a warning), never an exception. *)
Definition py_truediv (a b : num) : res num :=
  match a, b with
  | PyInt m, PyInt n =>
      if n =? 0 then raise ZeroDivisionError
      else
        let q := fdiv (exact m) (exact n) in
        if is_finite q then ret (PyFloat q) else raise OverflowError
  | _, _ =>
      x <- as_float a ;;
      y <- as_float b ;;
      if is_np a || is_np b then ret (NpFloat64 (fdiv x y))
      else if is_zero y then raise ZeroDivisionError
      else ret (PyFloat (fdiv x y))
  end.

(** Comparisons never raise; with a NaN they are [False]. *)
Definition cmp (iop : Z -> Z -> bool) (fop : float64 -> float64 -> bool)
    (a b : num) : res bool :=
  match a, b with
  | PyInt m, PyInt n => ret (iop m n)
  | _, _ =>
      x <- as_float a ;;
      y <- as_float b ;;
      ret (fop x y)
  end.

Definition py_le : num -> num -> res bool := cmp Z.leb SFleb.
Definition py_gt : num -> num -> res bool :=
  cmp Z.gtb (fun x y => SFltb y x).

(** ** The models *)

(** [return mu_max / (1 + concentration / Ki)] *)
Definition inhibition_model (concentration mu_max Ki : num) : res num :=
  q <- py_truediv concentration Ki ;;
  d <- py_add (PyInt 1) q ;;
  py_truediv mu_max d.

(** ** The application's state *)

(** [self.parameters]: seven [DoubleVar]s and one [IntVar]. *)
Record parameters : Type := mkParameters {
  mu_max : float64;
  Ki_comp1 : float64;
  Ki_comp2 : float64;
  K_max : float64;
  ka : float64;
  ke : float64;
  initial_conc : float64;
  time_points : Z
}.

(** [self.results_vars]: four [StringVar]s. *)
Record results : Type := mkResults {
  ed50_comp1 : string;
  ed50_comp2 : string;
  potencia_rel : string;
  ki_ratio : string
}.

Record model : Type := mkModel {
  params : parameters;
  selected_compound : string;
  results_vars : results
}.

(** The values [__init__] gives the variables. *)
Definition default_parameters : parameters :=
  mkParameters (dec 95 2) (dec 12 2) (of_int 10) (of_int 1000000000)
    (dec 1 1) (dec 5 2) (dec 2 1) 100.

Definition initial_model : model :=
  mkModel default_parameters "compound1" (mkResults "" "" "" "").

(** The state after [update_results] has run once on the initial one. *)
Definition displayed_model : model :=
  mkModel default_parameters "compound1"
    (mkResults "ED50 Comp1: 0.120 mmol/L" "ED50 Comp2: 10.000 mmol/L"
       "Potencia relativa: 83.3x" "Ratio Ki2/Ki1: 83.3").

(** What moving a slider does to one variable. *)
Definition set_time_points (n : Z) (self : model) : model :=
  let p := params self in
  mkModel (mkParameters (mu_max p) (Ki_comp1 p) (Ki_comp2 p) (K_max p)
             (ka p) (ke p) (initial_conc p) n)
    (selected_compound self) (results_vars self).

Definition set_Ki_comp1 (k : float64) (self : model) : model :=
  let p := params self in
  mkModel (mkParameters (mu_max p) k (Ki_comp2 p) (K_max p)
             (ka p) (ke p) (initial_conc p) (time_points p))
    (selected_compound self) (results_vars self).

(** numpy's elementary functions are not part of the program: the model takes
    [np.exp] and [np.log10] on doubles as given. *)
Section Engine.

Variable exp_f64 : float64 -> float64.
Variable log10_f64 : float64 -> float64.

(** A numpy ufunc on a scalar returns a [float64], whatever the argument. *)
Definition np_exp (v : num) : res num :=
  x <- as_float v ;; ret (NpFloat64 (exp_f64 x)).

Definition np_log10 (v : num) : res num :=
  x <- as_float v ;; ret (NpFloat64 (log10_f64 x)).

(** [k_total = ka + ke; return initial_conc * np.exp(-k_total * time)] *)
Definition pharmacokinetic_model (time initial_conc ka ke : num) : res num :=
  k_total <- py_add ka ke ;;
  a <- py_mul (py_neg k_total) time ;;
  e <- np_exp a ;;
  py_mul initial_conc e.

(** The two branches of [population_growth_model]. *)
Definition population_growth_model (time mu K_max N0 : num) : res num :=
  dying <- py_le mu (PyInt 0) ;;
  if dying then
    a <- py_mul (PyFloat (fopp (dec 1 1))) time ;;
    e <- np_exp a ;;
    py_mul N0 e
  else
    top <- py_mul K_max N0 ;;
    room <- py_sub K_max N0 ;;
    a <- py_mul (py_neg mu) time ;;
    e <- np_exp a ;;
    r <- py_mul room e ;;
    bottom <- py_add N0 r ;;
    py_truediv top bottom.

(** The default of the parameter [N0]: the literal [1e6]. *)
Definition N0_default : num := PyFloat (of_int 1000000).

(** ** The time grid *)

Definition intp_max : Z := 2 ^ 63 - 1.
Definition intp_min : Z := - 2 ^ 63.

(** [np.arange(start, stop, step)] for the float dtype.  The length is
    [ceil((stop - start) / step)], computed on doubles; a length of zero or
    less gives the empty array.  The first two elements are [start] and
    [start + step]; the others are [start + i * delta] with
    [delta = (start + step) - start].  Allocation is not bounded here. *)
Definition np_arange (start stop step : num) : res (list num) :=
  span <- py_sub stop start ;;
  val <- py_truediv span step ;;
  value <- as_float val ;;
  match ceil value with
  | None => raise (if is_nan value then ValueError else OverflowError)
  | Some len =>
      if (len <? intp_min) || (intp_max <? len) then raise OverflowError
      else if len <=? 0 then ret []
      else
        first <- as_float start ;;
        next <- py_add start step ;;
        second <- as_float next ;;
        let delta := fsub second first in
        let item (i : nat) : num :=
          NpFloat64 match i with
                    | O => first
                    | S O => second
                    | _ => fadd first (fmul (of_int (Z.of_nat i)) delta)
                    end in
        ret (map item (seq 0 (Z.to_nat len)))
  end.

(** ** The integrated series *)

(** One row of the data frame. *)
Record sample : Type := mkSample {
  time : num;
  concentration : num;
  mu : num;
  biomass : num;
  raw_biomass : num
}.

Fixpoint map_res {A B : Type} (f : A -> res B) (l : list A) : res (list B) :=
  match l with
  | [] => ret []
  | a :: l' =>
      b <- f a ;;
      bs <- map_res f l' ;;
      ret (b :: bs)
  end.

(** The body of the loop of [calculate_kinetic_data]. *)
Definition sample_at (self : model) (t : num) : res sample :=
  let p := params self in
  current_conc <- pharmacokinetic_model t (PyFloat (initial_conc p))
                    (PyFloat (ka p)) (PyFloat (ke p)) ;;
  let ki_value :=
    if String.eqb (selected_compound self) "compound1"
    then Ki_comp1 p else Ki_comp2 p in
  current_mu <- inhibition_model current_conc (PyFloat (mu_max p))
                  (PyFloat ki_value) ;;
  raw <- population_growth_model t current_mu (PyFloat (K_max p))
           N0_default ;;
  log_biomass <- np_log10 raw ;;
  ret (mkSample t current_conc current_mu log_biomass raw).

(** [dt = 8 / time_points; time_array = np.arange(0, 8 + dt, dt)], then one
    row per element. *)
Definition time_array (self : model) : res (list num) :=
  dt <- py_truediv (PyInt 8) (PyInt (time_points (params self))) ;;
  stop <- py_add (PyInt 8) dt ;;
  np_arange (PyInt 0) stop dt.

Definition calculate_kinetic_data (self : model) : res (list sample) :=
  ts <- time_array self ;;
  map_res (sample_at self) ts.

End Engine.

(** ** Derived metrics and their display *)

(** [n / d] rounded to the nearest integer, ties to even ([0 <= n], [0 < d]). *)
Definition round_half_even (n d : Z) : Z :=
  let q := n / d in
  match 2 * (n mod d) ?= d with
  | Lt => q
  | Gt => q + 1
  | Eq => if Z.even q then q else q + 1
  end.

(** [|x| * 10^p] rounded to an integer, for the finite double
    [x = +-m * 2^e]. *)
Definition scaled (p : nat) (m : positive) (e : Z) : Z :=
  let n := Zpos m * 10 ^ Z.of_nat p in
  match e with
  | Zneg k => round_half_even n (Z.pow_pos 2 k)
  | _ => n * 2 ^ e
  end.

Definition digit (d : Z) : ascii := ascii_of_N (48 + Z.to_N d).

(** The last [p] decimal digits of [n], in front of [acc]. *)
Fixpoint low_digits (p : nat) (n : Z) (acc : string) : string :=
  match p with
  | O => acc
  | S p' => low_digits p' (n / 10) (String (digit (n mod 10)) acc)
  end.

Definition string_of_nonneg (n : Z) : string :=
  DecimalString.NilZero.string_of_uint (N.to_uint (Z.to_N n)).

(** The integer [n] read as a number with [p] decimals. *)
Definition fixed (p : nat) (n : Z) : string :=
  let whole := string_of_nonneg (n / 10 ^ Z.of_nat p) in
  match p with
  | O => whole
  | _ => (whole ++ String "." (low_digits p n ""))%string
  end.

Definition signed (s : bool) (body : string) : string :=
  if s then String "-" body else body.

(** The format [:.pf] of a double: the exact binary value rounded to [p]
    decimals, ties to even. *)
Definition format_f64 (p : nat) (x : float64) : string :=
  match x with
  | S754_nan => "nan"
  | S754_infinity s => signed s "inf"
  | S754_zero s => signed s (fixed p 0)
  | S754_finite s m e => signed s (fixed p (scaled p m e))
  end.

(** An [int] under a float format is converted first. *)
Definition format_f (p : nat) (v : num) : res string :=
  x <- as_float v ;; ret (format_f64 p x).

(** [potencia_rel = ki2 / ki1 if ki1 > 0 else 0] *)
Definition relative_potency (ki1 ki2 : num) : res num :=
  positive <- py_gt ki1 (PyInt 0) ;;
  if positive then py_truediv ki2 ki1 else ret (PyInt 0).

(** [update_results]: the four [StringVar]s are set in turn. *)
Definition update_results (self : model) : res model :=
  let ki1 := PyFloat (Ki_comp1 (params self)) in
  let ki2 := PyFloat (Ki_comp2 (params self)) in
  potencia <- relative_potency ki1 ki2 ;;
  s1 <- format_f 3 ki1 ;;
  s2 <- format_f 3 ki2 ;;
  s3 <- format_f 1 potencia ;;
  s4 <- format_f 1 potencia ;;
  ret (mkModel (params self) (selected_compound self)
         (mkResults ("ED50 Comp1: " ++ s1 ++ " mmol/L")
                    ("ED50 Comp2: " ++ s2 ++ " mmol/L")
                    ("Potencia relativa: " ++ s3 ++ "x")
                    ("Ratio Ki2/Ki1: " ++ s4)))%string.

(** ** Predicates on grids *)

(** A numpy [float64] strictly below another one. *)
Definition before (a b : num) : bool :=
  match a, b with
  | NpFloat64 x, NpFloat64 y => SFltb x y
  | _, _ => false
  end.

(** Each element strictly below the next one. *)
Fixpoint ascending (l : list num) : bool :=
  match l with
  | a :: (b :: _) as l' => before a b && ascending l'
  | _ => true
  end.

(** The values of [time_points] within the range of the slider, 50 to 200,
    at which [np.arange] yields one element more. *)
Definition overshooting : list Z :=
  [54; 57; 73; 81; 87; 94; 96; 103; 106; 108; 114; 133; 137; 149; 173; 181;
   187; 189].

(** All fields of a row are numpy's. *)
Definition all_np (r : sample) : bool :=
  is_np (time r) && is_np (concentration r) && is_np (mu r)
  && is_np (biomass r) && is_np (raw_biomass r).

(** The grid for [n] points is built, has its length, [n + 1] or [n + 2],
    starts at 0 and ascends. *)
Definition grid_check (n : Z) : bool :=
  match time_array (set_time_points n initial_model) with
  | inr ts =>
      (Z.of_nat (List.length ts)
       =? n + (if existsb (Z.eqb n) overshooting then 2 else 1))
      && match ts with
         | NpFloat64 (S754_zero false) :: _ => true
         | _ => false
         end
      && ascending ts
  | inl _ => false
  end.

(** ** The window: curves, figures, message boxes and timers *)

(** [np.linspace(start, stop, num)] on floats, end point included: the
    elements are [i * step + start] with [step = (stop - start) / (num - 1)],
    each operation rounded, and the last one is then set to [stop].  (With a
    step that rounds to zero numpy divides before it multiplies; with one
    element or none there is no step.) *)
Definition np_linspace (start stop : num) (n : Z) : res (list num) :=
  if n <? 0 then raise ValueError
  else
    a <- as_float start ;;
    b <- as_float stop ;;
    let delta := fsub b a in
    let div := n - 1 in
    let step := fdiv delta (of_int div) in
    let item (i : nat) : float64 :=
      let y := of_int (Z.of_nat i) in
      if 0 <? div then
        if is_zero step then fadd (fmul (fdiv y (of_int div)) delta) a
        else fadd (fmul y step) a
      else fadd (fmul y delta) a in
    let ys := map item (seq 0 (Z.to_nat n)) in
    let ys' := if 1 <? n then removelast ys ++ [b] else ys in
    ret (map NpFloat64 ys').

(** A row of [self.experimental_data]. *)
Record exp_row : Type := mkExpRow {
  exp_conc : float64;
  exp_mu : float64;
  exp_g : float64;
  exp_viable : float64
}.

Definition experimental_compound1 : list exp_row :=
  [ mkExpRow (dec 0 2) (dec 95 2) (dec 73 2) (of_int 1);
    mkExpRow (dec 5 2) (dec 85 2) (dec 82 2) (dec 89 2);
    mkExpRow (dec 10 2) (dec 75 2) (dec 92 2) (dec 79 2);
    mkExpRow (dec 15 2) (dec 55 2) (dec 126 2) (dec 58 2);
    mkExpRow (dec 20 2) (dec 40 2) (dec 173 2) (dec 42 2) ].

Definition experimental_compound2 : list exp_row :=
  [ mkExpRow (dec 0 2) (dec 95 2) (dec 73 2) (of_int 1);
    mkExpRow (dec 5 2) (dec 90 2) (dec 77 2) (dec 95 2);
    mkExpRow (dec 10 2) (dec 91 2) (dec 76 2) (dec 96 2);
    mkExpRow (dec 15 2) (dec 89 2) (dec 78 2) (dec 94 2);
    mkExpRow (dec 20 2) (dec 90 2) (dec 77 2) (dec 95 2) ].

(** What is scattered: the columns [conc] and [mu]. *)
Definition observed (rows : list exp_row) : list (float64 * float64) :=
  map (fun r => (exp_conc r, exp_mu r)) rows.

(** [conc_range = np.linspace(0, 0.25, 100)] and the model over it:
    [[inhibition_model(conc, mu_max, ki) for conc in conc_range]]. *)
Definition predicted_curve (mu_max ki : float64) : res (list (num * num)) :=
  conc_range <- np_linspace (PyInt 0) (PyFloat (dec 25 2)) 100 ;;
  map_res (fun conc =>
             m <- inhibition_model conc (PyFloat mu_max) (PyFloat ki) ;;
             ret (conc, m))
    conc_range.

(** One panel of the inhibition figure: what is handed to [scatter], to
    [plot] and to [text].  Axis labels, colours and legends are constants of
    the drawing and are left out. *)
Record panel : Type := mkPanel {
  panel_title : string;
  panel_points : list (float64 * float64);
  panel_curve : list (num * num);
  panel_text : string
}.

Definition newline : string := String (ascii_of_nat 10) EmptyString.

(** The body of the loop of [update_inhibition_plot]; [ed50 = ki]. *)
Definition inhibition_panel (title : string) (rows : list exp_row)
    (mu_max ki : float64) : res panel :=
  curve <- predicted_curve mu_max ki ;;
  let ed50 := ki in
  s1 <- format_f 3 (PyFloat ki) ;;
  s2 <- format_f 3 (PyFloat ed50) ;;
  ret (mkPanel title (observed rows) curve
         ("Ki: " ++ s1 ++ " mmol/L" ++ newline
            ++ "ED50: " ++ s2 ++ " mmol/L")%string).

(** The comparison figure: the two curves, the two scatters and the height
    of the line of 50 % inhibition. *)
Record comparison : Type := mkComparison {
  comparison_curve1 : list (num * num);
  comparison_curve2 : list (num * num);
  comparison_points : list (list (float64 * float64));
  comparison_half : num
}.

(** A message box: [showerror(title, prefix + str(e))] or
    [showinfo(title, message)]. *)
Inductive dialog : Type :=
  | ShowError (title prefix : string) (e : exn)
  | ShowInfo (title message : string).

(** The application: the variables of [model], the three figures (empty
    when cleared), the message boxes shown so far, the files written by
    [to_csv] (as the frames they hold), and Tk's timers: the attribute
    [_update_timer] when it is set, the callbacks scheduled by [after] that
    have not run yet, and the number of the next one. *)
Record app : Type := mkApp {
  state : model;
  fig_inhibition : list panel;
  fig_kinetic : option (list sample);
  fig_comparison : option comparison;
  dialogs : list dialog;
  files : list (string * list sample);
  update_timer : option nat;
  pending : list nat;
  next_timer : nat
}.

Definition with_state (m : model) (a : app) : app :=
  mkApp m (fig_inhibition a) (fig_kinetic a) (fig_comparison a) (dialogs a)
    (files a) (update_timer a) (pending a) (next_timer a).

Definition with_fig_inhibition (f : list panel) (a : app) : app :=
  mkApp (state a) f (fig_kinetic a) (fig_comparison a) (dialogs a)
    (files a) (update_timer a) (pending a) (next_timer a).

Definition with_fig_kinetic (f : option (list sample)) (a : app) : app :=
  mkApp (state a) (fig_inhibition a) f (fig_comparison a) (dialogs a)
    (files a) (update_timer a) (pending a) (next_timer a).

Definition with_fig_comparison (f : option comparison) (a : app) : app :=
  mkApp (state a) (fig_inhibition a) (fig_kinetic a) f (dialogs a)
    (files a) (update_timer a) (pending a) (next_timer a).

Definition show (d : dialog) (a : app) : app :=
  mkApp (state a) (fig_inhibition a) (fig_kinetic a) (fig_comparison a)
    (dialogs a ++ [d]) (files a) (update_timer a) (pending a) (next_timer a).

Definition write_file (name : string) (rows : list sample) (a : app) : app :=
  mkApp (state a) (fig_inhibition a) (fig_kinetic a) (fig_comparison a)
    (dialogs a) (files a ++ [(name, rows)]) (update_timer a) (pending a)
    (next_timer a).

Definition with_timers (t : option nat) (q : list nat) (n : nat) (a : app)
    : app :=
  mkApp (state a) (fig_inhibition a) (fig_kinetic a) (fig_comparison a)
    (dialogs a) (files a) t q n.

(** A method of the application: it ends with a value or an exception, and
    with the state it has reached by then. *)
Definition cmd (A : Type) : Type := app -> res A * app.

Definition cret {A : Type} (x : A) : cmd A := fun a => (inr x, a).

Definition cbind {A B : Type} (c : cmd A) (k : A -> cmd B) : cmd B :=
  fun a =>
    match c a with
    | (inl e, a') => (inl e, a')
    | (inr x, a') => k x a'
    end.

Notation "x <~ c ;; k" := (cbind c (fun x => k))
  (at level 61, c at next level, right associativity).
Notation "c ;;; k" := (cbind c (fun _ => k))
  (at level 61, right associativity).

(** The outcome of a pure computation, in the current state. *)
Definition lift {A : Type} (r : res A) : cmd A := fun a => (r, a).

Definition modify (f : app -> app) : cmd unit := fun a => (inr tt, f a).

Definition reading {A : Type} (f : app -> A) : cmd A := fun a => (inr (f a), a).

(** [try: body except Exception as e: handler(e)] *)
Definition try_except (body : cmd unit) (handler : exn -> cmd unit)
    : cmd unit :=
  fun a =>
    match body a with
    | (inl e, a') => handler e a'
    | (inr _, a') => (inr tt, a')
    end.

Section Window.

Variable exp_f64 : float64 -> float64.
Variable log10_f64 : float64 -> float64.

(** [update_inhibition_plot]: the figure is cleared, then one panel is
    drawn for each compound. *)
Definition update_inhibition_plot : cmd unit :=
  modify (with_fig_inhibition []) ;;;
  p <~ reading (fun a => params (state a)) ;;
  p1 <~ lift (inhibition_panel "Compuesto 1 - Alta Actividad"
                experimental_compound1 (mu_max p) (Ki_comp1 p)) ;;
  modify (fun a => with_fig_inhibition (fig_inhibition a ++ [p1]) a) ;;;
  p2 <~ lift (inhibition_panel "Compuesto 2 - Baja Actividad"
                experimental_compound2 (mu_max p) (Ki_comp2 p)) ;;
  modify (fun a => with_fig_inhibition (fig_inhibition a ++ [p2]) a).

(** [update_kinetic_plot]: the series is computed first; the figure is
    cleared and drawn from it afterwards. *)
Definition update_kinetic_plot : cmd unit :=
  m <~ reading state ;;
  kinetic_data <~ lift (calculate_kinetic_data exp_f64 log10_f64 m) ;;
  modify (with_fig_kinetic None) ;;;
  modify (with_fig_kinetic (Some kinetic_data)).

(** [update_comparison_plot] *)
Definition update_comparison_plot : cmd unit :=
  modify (with_fig_comparison None) ;;;
  p <~ reading (fun a => params (state a)) ;;
  mu_comp1 <~ lift (predicted_curve (mu_max p) (Ki_comp1 p)) ;;
  mu_comp2 <~ lift (predicted_curve (mu_max p) (Ki_comp2 p)) ;;
  half <~ lift (py_mul (PyFloat (mu_max p)) (PyFloat (dec 5 1))) ;;
  modify (with_fig_comparison
            (Some (mkComparison mu_comp1 mu_comp2
                     [observed experimental_compound1;
                      observed experimental_compound2]
                     half))).

(** [update_results], on the variables of the application. *)
Definition update_results_cmd : cmd unit :=
  m <~ reading state ;;
  m' <~ lift (update_results m) ;;
  modify (with_state m').

(** [update_plots]: the four updates in turn; an exception in one of them
    skips the ones after it and is shown in a message box. *)
Definition update_plots : cmd unit :=
  try_except
    (update_inhibition_plot ;;;
     update_kinetic_plot ;;;
     update_comparison_plot ;;;
     update_results_cmd)
    (fun e => modify (show (ShowError "Error"
                              "Error al actualizar gráficos: " e))).

(** [on_parameter_change]: the timer set by the last change, if there is
    one, is cancelled, and [update_plots] is scheduled anew. *)
Definition on_parameter_change : cmd unit :=
  modify (fun a =>
            let q := match update_timer a with
                     | Some t => remove Nat.eq_dec t (pending a)
                     | None => pending a
                     end in
            let t' := next_timer a in
            with_timers (Some t') (q ++ [t']) (S t') a).

(** [on_compound_change] *)
Definition on_compound_change : cmd unit := update_plots.

(** A value written to one of the variables of [self.parameters]. *)
Inductive setting : Type :=
  | Set_mu_max (x : float64)
  | Set_Ki_comp1 (x : float64)
  | Set_Ki_comp2 (x : float64)
  | Set_K_max (x : float64)
  | Set_ka (x : float64)
  | Set_ke (x : float64)
  | Set_initial_conc (x : float64)
  | Set_time_points (n : Z).

Definition apply_setting (v : setting) (p : parameters) : parameters :=
  match v with
  | Set_mu_max x =>
      mkParameters x (Ki_comp1 p) (Ki_comp2 p) (K_max p) (ka p) (ke p)
        (initial_conc p) (time_points p)
  | Set_Ki_comp1 x =>
      mkParameters (mu_max p) x (Ki_comp2 p) (K_max p) (ka p) (ke p)
        (initial_conc p) (time_points p)
  | Set_Ki_comp2 x =>
      mkParameters (mu_max p) (Ki_comp1 p) x (K_max p) (ka p) (ke p)
        (initial_conc p) (time_points p)
  | Set_K_max x =>
      mkParameters (mu_max p) (Ki_comp1 p) (Ki_comp2 p) x (ka p) (ke p)
        (initial_conc p) (time_points p)
  | Set_ka x =>
      mkParameters (mu_max p) (Ki_comp1 p) (Ki_comp2 p) (K_max p) x (ke p)
        (initial_conc p) (time_points p)
  | Set_ke x =>
      mkParameters (mu_max p) (Ki_comp1 p) (Ki_comp2 p) (K_max p) (ka p) x
        (initial_conc p) (time_points p)
  | Set_initial_conc x =>
      mkParameters (mu_max p) (Ki_comp1 p) (Ki_comp2 p) (K_max p) (ka p)
        (ke p) x (time_points p)
  | Set_time_points n =>
      mkParameters (mu_max p) (Ki_comp1 p) (Ki_comp2 p) (K_max p) (ka p)
        (ke p) (initial_conc p) n
  end.

(** [self.parameters[key].set(value)]: the variable is written, and the
    trace that [bind_events] put on it calls [on_parameter_change]. *)
Definition set_parameter (v : setting) : cmd unit :=
  modify (fun a =>
            let m := state a in
            with_state (mkModel (apply_setting v (params m))
                          (selected_compound m) (results_vars m)) a) ;;;
  on_parameter_change.

Definition set_selected_compound (c : string) : cmd unit :=
  modify (fun a =>
            let m := state a in
            with_state (mkModel (params m) c (results_vars m)) a).

(** The dictionary [defaults] of [reset_parameters], in its order. *)
Definition defaults : list setting :=
  [ Set_mu_max (dec 95 2); Set_Ki_comp1 (dec 12 2); Set_Ki_comp2 (of_int 10);
    Set_K_max (of_int 1000000000); Set_ka (dec 1 1); Set_ke (dec 5 2);
    Set_initial_conc (dec 2 1); Set_time_points 100 ].

Fixpoint for_each {A : Type} (f : A -> cmd unit) (l : list A) : cmd unit :=
  match l with
  | [] => cret tt
  | x :: l' => f x ;;; for_each f l'
  end.

(** [reset_parameters] *)
Definition reset_parameters : cmd unit :=
  for_each set_parameter defaults ;;;
  set_selected_compound "compound1" ;;;
  update_plots.

(** [export_data]; [to_csv] is taken to succeed. *)
Definition export_data : cmd unit :=
  try_except
    (m <~ reading state ;;
     kinetic_data <~ lift (calculate_kinetic_data exp_f64 log10_f64 m) ;;
     let filename :=
       ("kinetic_data_" ++ selected_compound m ++ ".csv")%string in
     modify (write_file filename kinetic_data) ;;;
     modify (show (ShowInfo "Éxito" ("Datos exportados a " ++ filename))))
    (fun e => modify (show (ShowError "Error"
                              "Error al exportar datos: " e))).

(** What happens in the window: a slider is moved (the variable is written
    and the command of the scale runs), a compound is chosen, a button is
    pressed, a timer comes due. *)
Inductive event : Type :=
  | MoveSlider (v : setting)
  | ChooseCompound (c : string)
  | PressUpdate
  | PressReset
  | PressExport
  | TimerDue (t : nat).

Definition handle (ev : event) : cmd unit :=
  match ev with
  | MoveSlider v => set_parameter v ;;; on_parameter_change
  | ChooseCompound c => set_selected_compound c ;;; on_compound_change
  | PressUpdate => update_plots
  | PressReset => reset_parameters
  | PressExport => export_data
  | TimerDue t =>
      due <~ reading (fun a => existsb (Nat.eqb t) (pending a)) ;;
      if due then
        modify (fun a =>
                  with_timers (update_timer a)
                    (remove Nat.eq_dec t (pending a)) (next_timer a) a) ;;;
        update_plots
      else cret tt
  end.

(** The state after an event; a handler that raises leaves the state it
    has reached (Tk reports the exception and goes on). *)
Definition after_event (a : app) (ev : event) : app := snd (handle ev a).

Definition run (evs : list event) (a : app) : app :=
  fold_left after_event evs a.

(** The window when [__init__] returns: nothing drawn yet but for the first
    [update_plots], no timer. *)
Definition blank_app : app :=
  mkApp initial_model [] None None [] [] None [] 0.

Definition started_app : app := snd (update_plots blank_app).

(** At most one callback is scheduled, and it is the one that
    [_update_timer] names. *)
Definition debounced (a : app) : Prop :=
  pending a = [] \/ exists t, pending a = [t] /\ update_timer a = Some t.

End Window.

End Py.

(** * The formulas over the real numbers *)

Module Ideal.

Local Open Scope R_scope.

(** [mu_max / (1 + concentration / Ki)] *)
Definition inhibition_model (concentration mu_max Ki : R) : R :=
  mu_max / (1 + concentration / Ki).

(** [k_total = ka + ke; initial_conc * exp(-k_total * time)] *)
Definition pharmacokinetic_model (time initial_conc ka ke : R) : R :=
  let k_total := ka + ke in
  initial_conc * exp (- k_total * time).

(** The branch [mu <= 0] decays at the fixed rate [0.1]; the other one is the
    closed form of the logistic equation. *)
Definition population_growth_model (time mu K_max N0 : R) : R :=
  if Rle_dec mu 0 then N0 * exp (- (1 / 10) * time)
  else (K_max * N0) / (N0 + (K_max - N0) * exp (- mu * time)).

(** The loop body of [calculate_kinetic_data] at time [t]: the growth rate
    under the concentration left at that time, and the population grown at
    that rate from the default [N0 = 1e6]. *)
Definition current_mu (t initial_conc ka ke mu_max Ki : R) : R :=
  inhibition_model (pharmacokinetic_model t initial_conc ka ke) mu_max Ki.

Definition raw_biomass (t initial_conc ka ke mu_max Ki K_max : R) : R :=
  population_growth_model t (current_mu t initial_conc ka ke mu_max Ki)
    K_max 1000000.

End Ideal.

(** * Facts about the interpreter-level model *)

Section PyFacts.

Import Py.
Local Open Scope Z_scope.

Variable exp_f64 : float64 -> float64.
Variable log10_f64 : float64 -> float64.

Lemma pharmacokinetic_model_np t c0 a e :
  pharmacokinetic_model exp_f64 (NpFloat64 t) (PyFloat c0) (PyFloat a) (PyFloat e)
  = inr (NpFloat64 (fmul c0 (exp_f64 (fmul (fopp (fadd a e)) t)))).
Proof. reflexivity. Qed.

Lemma inhibition_model_np c m k :
  inhibition_model (NpFloat64 c) (PyFloat m) (PyFloat k)
  = inr (NpFloat64 (fdiv m (fadd (of_int 1) (fdiv c k)))).
Proof. reflexivity. Qed.

Lemma population_growth_model_np t m K N :
  exists b, population_growth_model exp_f64 (NpFloat64 t) (NpFloat64 m)
              (PyFloat K) (PyFloat N) = inr (NpFloat64 b).
Proof.
  unfold population_growth_model.
  change (py_le (NpFloat64 m) (PyInt 0)) with (@inr exn bool (SFleb m (of_int 0))).
  cbn [bind].
  destruct (SFleb m (of_int 0)); eexists; reflexivity.
Qed.

(** The body of the loop never raises on an element of a numpy array: past
    the grid, every division of the pipeline is numpy's. *)
Lemma sample_at_np self t :
  exists s, sample_at exp_f64 log10_f64 self (NpFloat64 t) = inr s
            /\ time s = NpFloat64 t.
Proof.
  unfold sample_at.
  rewrite pharmacokinetic_model_np. cbn [bind].
  rewrite inhibition_model_np. cbn [bind].
  unfold N0_default.
  match goal with
  | |- context [population_growth_model _ (NpFloat64 ?a) (NpFloat64 ?b)
                  (PyFloat ?c) (PyFloat ?d)] =>
      destruct (population_growth_model_np a b c d) as [b' Hb]
  end.
  rewrite Hb. cbn [bind np_log10 as_float ret].
  eexists; split; reflexivity.
Qed.

Lemma map_res_rows {A B : Type} (f : A -> res B) (g : B -> A) (l : list A) :
  Forall (fun a => exists b, f a = inr b /\ g b = a) l ->
  exists bs, map_res f l = inr bs /\ map g bs = l.
Proof.
  induction 1 as [| a l [b [Hb Hg]] _ [bs [Hbs Hm]]].
  - exists []. split; reflexivity.
  - exists (b :: bs). cbn [map_res]. rewrite Hb. cbn [bind].
    rewrite Hbs. cbn [bind ret map]. now rewrite Hg, Hm.
Qed.

Lemma bind_inr {A B : Type} (c : res A) (k : A -> res B) (b : B) :
  bind c k = inr b -> exists a, c = inr a /\ k a = inr b.
Proof.
  destruct c as [e | a]; cbn [bind]; [discriminate | eauto].
Qed.

(** Every element of an array made by [np.arange] is a numpy [float64]. *)
Lemma np_arange_np start stop step ts :
  np_arange start stop step = inr ts -> Forall (fun t => is_np t = true) ts.
Proof.
  unfold np_arange. intros H.
  apply bind_inr in H as [span [_ H]].
  apply bind_inr in H as [val [_ H]].
  apply bind_inr in H as [value [_ H]].
  destruct (ceil value) as [len |]; [| discriminate].
  destruct ((len <? intp_min) || (intp_max <? len)); [discriminate |].
  destruct (len <=? 0).
  - injection H as <-. constructor.
  - apply bind_inr in H as [first [_ H]].
    apply bind_inr in H as [next [_ H]].
    apply bind_inr in H as [second [_ H]].
    injection H as <-.
    apply Forall_forall. intros t Ht.
    apply in_map_iff in Ht as [i [<- _]]. reflexivity.
Qed.

(** When the grid is built, the series has one row per element of the grid,
    in order, and the row carries the element as its time. *)
Lemma calculate_kinetic_data_rows self ts :
  time_array self = inr ts ->
  exists rows, calculate_kinetic_data exp_f64 log10_f64 self = inr rows
               /\ map time rows = ts.
Proof.
  intros Hts. unfold calculate_kinetic_data. rewrite Hts. cbn [bind].
  apply map_res_rows.
  assert (Hnp : Forall (fun t => is_np t = true) ts).
  { unfold time_array in Hts.
    apply bind_inr in Hts as [dt [_ Hts]].
    apply bind_inr in Hts as [stop [_ Hts]].
    now apply np_arange_np in Hts. }
  eapply Forall_impl; [| exact Hnp].
  intros [n | x | x] Hx; try discriminate.
  apply sample_at_np.
Qed.

(** ** Division by a zero inhibition constant *)

(** C1, as the code has it.  With [Ki = 0] (either signed zero) and a plain
    Python [float] as concentration, [inhibition_model] raises
    [ZeroDivisionError] for every [mu_max].  With a numpy [float64] as
    concentration, which is what every call of the program passes, nothing is
    raised: the call returns a [float64] that is a NaN or a zero. *)
Theorem inhibition_model_zero_Ki : forall c m s,
  inhibition_model (PyFloat c) (PyFloat m) (PyFloat (S754_zero s))
    = inl ZeroDivisionError
  /\ exists v,
       inhibition_model (NpFloat64 c) (PyFloat m) (PyFloat (S754_zero s))
         = inr (NpFloat64 v)
       /\ is_nan v || is_zero v = true.
Proof.
  intros c m s. split; [reflexivity |].
  rewrite inhibition_model_np. eexists. split; [reflexivity |].
  destruct c as [sc | sc | | sc mc ec], m as [sm | sm | | sm mm em];
    reflexivity.
Qed.

(** C1 fails as stated: at [Ki = 0.0], with the concentration [0.2] as a
    numpy [float64] and [mu_max = 0.95], the call returns the number [0.0]. *)
Lemma inhibition_model_zero_Ki_returns :
  inhibition_model (NpFloat64 (dec 2 1)) (PyFloat (dec 95 2))
    (PyFloat (S754_zero false))
  = inr (NpFloat64 (S754_zero false)).
Proof. vm_compute. reflexivity. Qed.

(** The same through the pipeline: with [Ki_comp1] at [0.0] the series is
    computed, all 101 rows of it. *)
Lemma calculate_kinetic_data_zero_Ki :
  exists rows,
    calculate_kinetic_data exp_f64 log10_f64
      (set_Ki_comp1 (S754_zero false) initial_model) = inr rows
    /\ List.length rows = 101%nat.
Proof.
  destruct (calculate_kinetic_data_rows
              (set_Ki_comp1 (S754_zero false) initial_model) _ eq_refl)
    as [rows [Hrows Htimes]].
  exists rows. split; [exact Hrows |].
  apply (f_equal (@List.length num)) in Htimes.
  rewrite length_map in Htimes. rewrite Htimes.
  vm_compute. reflexivity.
Qed.

(** ** The time grid *)


(** The case of C2 that the specification works out: 100 points give 101
    rows, the first at time 0, the last at time 8, the i-th at [i * 0.08]
    rounded. *)
Lemma calculate_kinetic_data_100_rows :
  exists rows,
    calculate_kinetic_data exp_f64 log10_f64 initial_model = inr rows
    /\ List.length rows = 101%nat
    /\ nth 0 (map time rows) (PyInt 0) = NpFloat64 (of_int 0)
    /\ nth 100 (map time rows) (PyInt 0) = NpFloat64 (of_int 8)
    /\ forall i, (2 <= i <= 100)%nat ->
         nth i (map time rows) (PyInt 0)
         = NpFloat64 (fadd (of_int 0)
                        (fmul (of_int (Z.of_nat i)) (dec 8 2))).
Proof.
  destruct (calculate_kinetic_data_rows initial_model _ eq_refl)
    as [rows [Hrows Htimes]].
  exists rows. split; [exact Hrows |].
  split.
  { apply (f_equal (@List.length num)) in Htimes.
    rewrite length_map in Htimes. rewrite Htimes. vm_compute. reflexivity. }
  rewrite Htimes.
  split; [vm_compute; reflexivity |].
  split; [vm_compute; reflexivity |].
  intros i Hi.
  assert (Hb : (i - 2 < 99)%nat) by lia.
  replace i with (2 + (i - 2))%nat by lia.
  generalize dependent (i - 2)%nat. clear i Hi.
  intros n Hn.
  do 99 (destruct n as [| n]; [vm_compute; reflexivity |]).
  lia.
Qed.

(** C2 at [time_points = 54], a value the slider reaches: the series has 56
    rows, not 55, and the last one is at time [8.148...], past the horizon.
    The quotient [(8 + dt) / dt] rounds to a double above 55, and its
    [ceil] is 56. *)
Theorem calculate_kinetic_data_54_rows :
  exists rows,
    calculate_kinetic_data exp_f64 log10_f64
      (set_time_points 54 initial_model) = inr rows
    /\ List.length rows = 56%nat
    /\ nth 54 (map time rows) (PyInt 0) = NpFloat64 (of_int 8)
    /\ nth 55 (map time rows) (PyInt 0)
       = NpFloat64 (S754_finite false 4586999620469949 (-49))
    /\ SFltb (of_int 8) (S754_finite false 4586999620469949 (-49)) = true.
Proof.
  destruct (calculate_kinetic_data_rows
              (set_time_points 54 initial_model) _ eq_refl)
    as [rows [Hrows Htimes]].
  exists rows. split; [exact Hrows |].
  split.
  { apply (f_equal (@List.length num)) in Htimes.
    rewrite length_map in Htimes. rewrite Htimes. vm_compute. reflexivity. }
  rewrite Htimes.
  repeat split; vm_compute; reflexivity.
Qed.

(** C9.  The series is a function of the eight parameters and of the
    selected compound, and of nothing else in the application: two states that
    agree on them give the same outcome, the same rows with the same value in
    every field, or the same exception.  Computing the series changes no
    state, so a second invocation meets the inputs of the first. *)
Theorem calculate_kinetic_data_deterministic self1 self2 :
  params self1 = params self2 ->
  selected_compound self1 = selected_compound self2 ->
  calculate_kinetic_data exp_f64 log10_f64 self1
  = calculate_kinetic_data exp_f64 log10_f64 self2.
Proof.
  destruct self1 as [p1 c1 r1], self2 as [p2 c2 r2].
  cbn [params selected_compound]. intros -> ->.
  reflexivity.
Qed.

(** ** Derived metrics *)

Lemma positive_not_zero k :
  SFltb (S754_zero false) k = true -> is_zero k = false.
Proof. destruct k; [discriminate | reflexivity ..]. Qed.

Lemma relative_potency_positive k1 k2 :
  SFltb (S754_zero false) k1 = true ->
  relative_potency (PyFloat k1) (PyFloat k2) = inr (PyFloat (fdiv k2 k1)).
Proof.
  intros H. unfold relative_potency.
  change (py_gt (PyFloat k1) (PyInt 0))
    with (@inr exn bool (SFltb (S754_zero false) k1)).
  rewrite H. cbn [bind].
  unfold py_truediv. cbn [as_float bind ret is_np orb].
  now rewrite (positive_not_zero _ H).
Qed.

Lemma relative_potency_sentinel k1 k2 :
  SFltb (S754_zero false) k1 = false ->
  relative_potency (PyFloat k1) (PyFloat k2) = inr (PyInt 0).
Proof.
  intros H. unfold relative_potency.
  change (py_gt (PyFloat k1) (PyInt 0))
    with (@inr exn bool (SFltb (S754_zero false) k1)).
  now rewrite H.
Qed.

(** C7.  With [Ki_comp1 > 0] the relative potency is the quotient
    [Ki_comp2 / Ki_comp1], and [update_results] displays [Ki_comp1] and
    [Ki_comp2] as the two ED50 and the quotient as the potency.  With
    [Ki_comp1 = 0.12] and [Ki_comp2 = 10.0] the quotient lies between 83.33
    and 83.34 and is displayed as [83.3]. *)
Theorem update_results_metrics :
  (forall self,
     let ki1 := Ki_comp1 (params self) in
     let ki2 := Ki_comp2 (params self) in
     SFltb (S754_zero false) ki1 = true ->
     relative_potency (PyFloat ki1) (PyFloat ki2)
       = inr (PyFloat (fdiv ki2 ki1))
     /\ update_results self
        = inr (mkModel (params self) (selected_compound self)
                 (mkResults
                    ("ED50 Comp1: " ++ format_f64 3 ki1 ++ " mmol/L")
                    ("ED50 Comp2: " ++ format_f64 3 ki2 ++ " mmol/L")
                    ("Potencia relativa: "
                       ++ format_f64 1 (fdiv ki2 ki1) ++ "x")
                    ("Ratio Ki2/Ki1: " ++ format_f64 1 (fdiv ki2 ki1))))%string)
  /\ (exists q,
        relative_potency (PyFloat (dec 12 2)) (PyFloat (of_int 10))
          = inr (PyFloat q)
        /\ SFltb (dec 8333 2) q = true
        /\ SFltb q (dec 8334 2) = true
        /\ format_f64 1 q = "83.3"%string).
Proof.
  split.
  - intros self ki1 ki2 H.
    pose proof (relative_potency_positive ki1 ki2 H) as Hq.
    split; [exact Hq |].
    unfold update_results. fold ki1 ki2. rewrite Hq. reflexivity.
  - eexists. split; [vm_compute; reflexivity |].
    repeat split; vm_compute; reflexivity.
Qed.


End PyFacts.

(** * Facts about the formulas over the reals *)

Section IdealFacts.

Import Ideal.
Local Open Scope R_scope.




(** ** Inhibition *)



(** ** Decay *)



(** ** Growth *)












End IdealFacts.

(** * The theorems at concrete inputs *)

Section Witnesses.

Import Py.


(** C9 at the initial state and at the state whose result labels are
    filled: the parameters and the selection agree, and so do the series. *)
Lemma calculate_kinetic_data_deterministic_witness :
  params initial_model = params displayed_model
  /\ selected_compound initial_model = selected_compound displayed_model
  /\ calculate_kinetic_data (fun x => x) (fun x => x) initial_model
     = calculate_kinetic_data (fun x => x) (fun x => x) displayed_model.
Proof.
  split; [reflexivity | split; [reflexivity |]].
  apply (calculate_kinetic_data_deterministic (fun x => x) (fun x => x));
    reflexivity.
Defined.

(** C7 at the initial parameters: the labels that are displayed. *)
Lemma update_results_metrics_witness :
  SFltb (S754_zero false) (Ki_comp1 (params initial_model)) = true
  /\ update_results initial_model = inr displayed_model.
Proof.
  split; [reflexivity |].
  destruct update_results_metrics as [H _].
  destruct (H initial_model eq_refl) as [_ Hu].
  rewrite Hu. vm_compute. reflexivity.
Defined.


Import Ideal.
Local Open Scope R_scope.





End Witnesses.

(** * Further facts about the formulas *)

Section IdealMore.

Import Ideal.
Local Open Scope R_scope.

(** ** Inhibition *)





(** ** Decay *)



(** ** Growth *)





(** ** The composed growth rate *)




End IdealMore.

(** * Further facts about the interpreter-level model *)

Section PyMore.

Import Py.
Local Open Scope Z_scope.

Variable exp_f64 : float64 -> float64.
Variable log10_f64 : float64 -> float64.

(** ** The series *)

(** A row on doubles: past the grid every operation is numpy's, so nothing
    raises and every field is a [float64]. *)
Lemma sample_at_closed_form self t :
  let p := params self in
  let c := fmul (initial_conc p)
             (exp_f64 (fmul (fopp (fadd (ka p) (ke p))) t)) in
  let ki := if String.eqb (selected_compound self) "compound1"
            then Ki_comp1 p else Ki_comp2 p in
  let m := fdiv (mu_max p) (fadd (of_int 1) (fdiv c ki)) in
  let b := if SFleb m (of_int 0)
           then fmul (of_int 1000000) (exp_f64 (fmul (fopp (dec 1 1)) t))
           else fdiv (fmul (K_max p) (of_int 1000000))
                  (fadd (of_int 1000000)
                     (fmul (fsub (K_max p) (of_int 1000000))
                        (exp_f64 (fmul (fopp m) t)))) in
  sample_at exp_f64 log10_f64 self (NpFloat64 t)
  = inr (mkSample (NpFloat64 t) (NpFloat64 c) (NpFloat64 m)
           (NpFloat64 (log10_f64 b)) (NpFloat64 b)).
Proof.
  intros p c ki m b. unfold sample_at. fold p.
  rewrite pharmacokinetic_model_np. cbn [bind]. fold c. fold ki.
  rewrite inhibition_model_np. cbn [bind]. fold m.
  unfold N0_default, population_growth_model.
  change (py_le (NpFloat64 m) (PyInt 0))
    with (@inr exn bool (SFleb m (of_int 0))).
  cbn [bind]. subst b.
  destruct (SFleb m (of_int 0)); reflexivity.
Qed.

Lemma map_res_Forall2 {A B : Type} (f : A -> res B) (P : A -> B -> Prop)
    (l : list A) :
  Forall (fun a => exists b, f a = inr b /\ P a b) l ->
  exists bs, map_res f l = inr bs /\ Forall2 P l bs.
Proof.
  induction 1 as [| a l [b [Hb HP]] _ [bs [Hbs HF]]].
  - exists []. split; [reflexivity | constructor].
  - exists (b :: bs). cbn [map_res]. rewrite Hb. cbn [bind].
    rewrite Hbs. split; [reflexivity | now constructor].
Qed.

Lemma map_res_ext {A B : Type} (f g : A -> res B) (l : list A) :
  (forall a, f a = g a) -> map_res f l = map_res g l.
Proof.
  intros H. induction l as [| a l IH]; [reflexivity |].
  cbn [map_res]. now rewrite H, IH.
Qed.

Lemma time_array_np self ts :
  time_array self = inr ts -> Forall (fun t => is_np t = true) ts.
Proof.
  unfold time_array. intros H.
  apply bind_inr in H as [dt [_ H]].
  apply bind_inr in H as [stop [_ H]].
  now apply np_arange_np in H.
Qed.

(** X11.  [calculate_kinetic_data] raises only while the grid is built, and then
    the exception of the grid.  Once the grid is there, whatever the seven
    float parameters are (zeros, negative numbers, infinities or NaN
    included), the series has one row per element of the grid, in order, with
    the element as its time, and every field of every row is a numpy
    [float64]. *)
Theorem calculate_kinetic_data_fails_only_on_grid self :
  match time_array self with
  | inl e => calculate_kinetic_data exp_f64 log10_f64 self = inl e
  | inr ts =>
      exists rows,
        calculate_kinetic_data exp_f64 log10_f64 self = inr rows
        /\ map time rows = ts
        /\ forallb all_np rows = true
  end.
Proof.
  destruct (time_array self) as [e | ts] eqn:Hts.
  - unfold calculate_kinetic_data. now rewrite Hts.
  - pose proof (time_array_np _ _ Hts) as Hnp.
    unfold calculate_kinetic_data. rewrite Hts. cbn [bind].
    destruct (map_res_Forall2 (sample_at exp_f64 log10_f64 self)
                (fun t r => time r = t /\ all_np r = true) ts)
      as [rows [Hrows HF]].
    { eapply Forall_impl; [| exact Hnp].
      intros [n | x | x] Hx; try discriminate.
      rewrite sample_at_closed_form. eexists. split; [reflexivity |].
      split; reflexivity. }
    exists rows. split; [exact Hrows |].
    clear Hrows Hts Hnp. induction HF as [| t r ts rows [Ht Hr] _ [IH1 IH2]].
    + split; reflexivity.
    + cbn [map forallb]. rewrite Ht, Hr, IH1, IH2. split; reflexivity.
Qed.

Lemma slider_range_enum n :
  50 <= n <= 200 -> In n (map Z.of_nat (seq 50 151)).
Proof.
  intros H. apply in_map_iff. exists (Z.to_nat n).
  split; [lia |]. apply in_seq. lia.
Qed.

Lemma grid_check_slider_range :
  forallb grid_check (map Z.of_nat (seq 50 151)) = true.
Proof. vm_compute. reflexivity. Qed.

(** X12.  Over the whole range of the slider, 50 to 200 points, the series is
    computed without an exception; it starts at time 0 and its times are
    strictly increasing; it has [time_points + 1] rows, except at the 18
    values of [overshooting], where it has [time_points + 2]. *)
Theorem calculate_kinetic_data_on_slider_range self :
  50 <= time_points (params self) <= 200 ->
  exists rows,
    calculate_kinetic_data exp_f64 log10_f64 self = inr rows
    /\ Z.of_nat (List.length rows)
       = time_points (params self)
         + (if existsb (Z.eqb (time_points (params self))) overshooting
            then 2 else 1)
    /\ nth 0 (map time rows) (PyInt 0) = NpFloat64 (of_int 0)
    /\ ascending (map time rows) = true.
Proof.
  intros Hn.
  pose proof (proj1 (forallb_forall grid_check _) grid_check_slider_range _
                (slider_range_enum _ Hn)) as Hc.
  unfold grid_check in Hc.
  change (time_array (set_time_points (time_points (params self))
                        initial_model))
    with (time_array self) in Hc.
  destruct (time_array self) as [e | ts] eqn:Hts; [discriminate |].
  destruct (calculate_kinetic_data_rows exp_f64 log10_f64 self ts Hts)
    as [rows [Hrows Htimes]].
  exists rows. split; [exact Hrows |].
  apply andb_prop in Hc as [Hc Hasc]. apply andb_prop in Hc as [Hlen H0].
  rewrite Htimes. split; [| split].
  - apply Z.eqb_eq in Hlen. rewrite <- Hlen, <- Htimes.
    now rewrite length_map.
  - destruct ts as [| [n | x | [[|] | | |]] ts']; try discriminate.
    reflexivity.
  - exact Hasc.
Qed.

(** X13.  A selection other than the string [compound1], whatever it is, is read
    as the second compound. *)
Theorem calculate_kinetic_data_other_selection self c :
  c <> "compound1"%string ->
  calculate_kinetic_data exp_f64 log10_f64
    (mkModel (params self) c (results_vars self))
  = calculate_kinetic_data exp_f64 log10_f64
      (mkModel (params self) "compound2" (results_vars self)).
Proof.
  intros Hc. apply String.eqb_neq in Hc.
  unfold calculate_kinetic_data.
  change (time_array (mkModel (params self) c (results_vars self)))
    with (time_array (mkModel (params self) "compound2" (results_vars self))).
  destruct (time_array _) as [e | ts]; [reflexivity |]. cbn [bind].
  apply map_res_ext. intros t.
  unfold sample_at. cbn [params selected_compound]. now rewrite Hc.
Qed.

(** X14.  The selected compound bears on the growth rate and on the biomass only:
    for the same parameters, two selections give the same exception, or
    series with the same times and the same concentrations. *)
Theorem selection_keeps_times_and_concentrations p c1 c2 r1 r2 :
  match calculate_kinetic_data exp_f64 log10_f64 (mkModel p c1 r1),
        calculate_kinetic_data exp_f64 log10_f64 (mkModel p c2 r2) with
  | inl e1, inl e2 => e1 = e2
  | inr rows1, inr rows2 =>
      map time rows1 = map time rows2
      /\ map concentration rows1 = map concentration rows2
  | _, _ => False
  end.
Proof.
  unfold calculate_kinetic_data.
  change (time_array (mkModel p c2 r2)) with (time_array (mkModel p c1 r1)).
  destruct (time_array (mkModel p c1 r1)) as [e | ts] eqn:Hts;
    [reflexivity |].
  pose proof (time_array_np _ _ Hts) as Hnp. cbn [bind].
  set (conc := fun t : num =>
         match t with
         | NpFloat64 x =>
             NpFloat64 (fmul (initial_conc p)
                          (exp_f64 (fmul (fopp (fadd (ka p) (ke p))) x)))
         | _ => t
         end).
  assert (H : forall c r,
             exists rows,
               map_res (sample_at exp_f64 log10_f64 (mkModel p c r)) ts
               = inr rows
               /\ map time rows = ts
               /\ map concentration rows = map conc ts).
  { intros c r.
    destruct (map_res_Forall2 (sample_at exp_f64 log10_f64 (mkModel p c r))
                (fun t row => time row = t /\ concentration row = conc t) ts)
      as [rows [Hrows HF]].
    { eapply Forall_impl; [| exact Hnp].
      intros [n | x | x] Hx; try discriminate.
      rewrite sample_at_closed_form. eexists. split; [reflexivity |].
      split; reflexivity. }
    exists rows. split; [exact Hrows |]. clear Hrows Hnp Hts.
    induction HF as [| t row ts' rows [Ht Hr] _ [IH1 IH2]].
    - split; reflexivity.
    - cbn [map]. rewrite Ht, Hr, IH1, IH2. split; reflexivity. }
  destruct (H c1 r1) as [rows1 [-> [Ht1 Hc1]]].
  destruct (H c2 r2) as [rows2 [-> [Ht2 Hc2]]].
  split; congruence.
Qed.

(** X15.  What a zero inhibition constant does to a row.  When the selected [Ki]
    is zero, [mu_max] is finite and the concentration is neither zero nor a
    NaN, the growth rate of the row is a zero, and the biomass is the one of
    the dying branch, [N0 * exp(-0.1 * t)]. *)
Theorem sample_at_zero_Ki self t :
  let p := params self in
  let c := fmul (initial_conc p)
             (exp_f64 (fmul (fopp (fadd (ka p) (ke p))) t)) in
  is_zero (if String.eqb (selected_compound self) "compound1"
           then Ki_comp1 p else Ki_comp2 p) = true ->
  is_finite (mu_max p) = true ->
  is_nan c = false -> is_zero c = false ->
  exists s sign,
    sample_at exp_f64 log10_f64 self (NpFloat64 t) = inr s
    /\ mu s = NpFloat64 (S754_zero sign)
    /\ raw_biomass s
       = NpFloat64 (fmul (of_int 1000000)
                      (exp_f64 (fmul (fopp (dec 1 1)) t))).
Proof.
  intros p c Hk Hm Hn Hz.
  rewrite sample_at_closed_form. fold p. fold c.
  destruct (if String.eqb (selected_compound self) "compound1"
            then Ki_comp1 p else Ki_comp2 p) as [sk | | |];
    try discriminate.
  assert (Hmu : exists sign,
            fdiv (mu_max p) (fadd (of_int 1) (fdiv c (S754_zero sk)))
            = S754_zero sign).
  { destruct c as [sc | sc | | sc mc ec]; try discriminate;
      destruct (mu_max p) as [sm | sm | | sm mm em]; try discriminate;
      eexists; reflexivity. }
  destruct Hmu as [sign Hmu]. rewrite Hmu.
  eexists. exists sign. split; [reflexivity |].
  split; [reflexivity |].
  cbn [raw_biomass]. destruct sign; reflexivity.
Qed.

(** X16.  Whatever the parameters, [update_results] raises nothing and changes
    nothing but the four labels; when [Ki_comp1 > 0] does not hold
    (a zero, a negative number or a NaN) the potency shown is [0.0]. *)
Theorem update_results_total self :
  exists r,
    update_results self
    = inr (mkModel (params self) (selected_compound self) r)
    /\ (SFltb (S754_zero false) (Ki_comp1 (params self)) = false ->
        potencia_rel r = "Potencia relativa: 0.0x"%string
        /\ ki_ratio r = "Ratio Ki2/Ki1: 0.0"%string).
Proof.
  unfold update_results.
  destruct (SFltb (S754_zero false) (Ki_comp1 (params self))) eqn:H.
  - rewrite (relative_potency_positive _ _ H).
    eexists. split; [reflexivity | discriminate].
  - rewrite (relative_potency_sentinel _ _ H).
    eexists. split; [reflexivity |]. intros _. split; reflexivity.
Qed.

(** ** The curves *)

Lemma conc_range_value :
  exists cs,
    np_linspace (PyInt 0) (PyFloat (dec 25 2)) 100 = inr cs
    /\ List.length cs = 100%nat
    /\ nth 0 cs (PyInt 0) = NpFloat64 (S754_zero false)
    /\ nth 99 cs (PyInt 0) = NpFloat64 (dec 25 2)
    /\ ascending cs = true
    /\ forallb is_np cs = true.
Proof.
  eexists. split; [vm_compute; reflexivity |].
  repeat split; vm_compute; reflexivity.
Qed.

Lemma predicted_curve_points m k cs :
  np_linspace (PyInt 0) (PyFloat (dec 25 2)) 100 = inr cs ->
  exists curve,
    predicted_curve m k = inr curve
    /\ Forall2 (fun conc pt =>
                  fst pt = conc
                  /\ exists c, conc = NpFloat64 c
                     /\ snd pt
                        = NpFloat64 (fdiv m (fadd (of_int 1) (fdiv c k))))
         cs curve.
Proof.
  intros Hcs.
  assert (Hnp : forallb is_np cs = true).
  { destruct conc_range_value as [cs' [Hcs' [_ [_ [_ [_ Hnp]]]]]].
    congruence. }
  unfold predicted_curve. rewrite Hcs. cbn [bind].
  apply map_res_Forall2.
  apply Forall_forall. intros conc Hin.
  pose proof (proj1 (forallb_forall _ _) Hnp _ Hin) as Hc.
  destruct conc as [n | x | x]; try discriminate.
  rewrite inhibition_model_np. cbn [bind ret].
  eexists. split; [reflexivity |]. split; [reflexivity |].
  exists x. split; reflexivity.
Qed.

Lemma predicted_curve_returns m k :
  exists curve, predicted_curve m k = inr curve.
Proof.
  destruct conc_range_value as [cs [Hcs _]].
  destruct (predicted_curve_points m k cs Hcs) as [curve [H _]].
  now exists curve.
Qed.

(** X17.  The curve of a panel is computed whatever [mu_max] and [Ki] are, a zero
    [Ki] included: it has 100 points, over concentrations that ascend from 0
    to 0.25, and each point is the IEEE value of
    [mu_max / (1 + conc / Ki)], a numpy [float64]. *)
Theorem predicted_curve_total m k :
  exists curve,
    predicted_curve m k = inr curve
    /\ List.length curve = 100%nat
    /\ nth 0 (map fst curve) (PyInt 0) = NpFloat64 (S754_zero false)
    /\ nth 99 (map fst curve) (PyInt 0) = NpFloat64 (dec 25 2)
    /\ ascending (map fst curve) = true
    /\ Forall (fun pt => exists c,
                 fst pt = NpFloat64 c
                 /\ snd pt = NpFloat64 (fdiv m (fadd (of_int 1) (fdiv c k))))
         curve.
Proof.
  destruct conc_range_value as [cs [Hcs [Hlen [H0 [H99 [Hasc _]]]]]].
  destruct (predicted_curve_points m k cs Hcs) as [curve [Hcurve HF]].
  exists curve. split; [exact Hcurve |].
  assert (Hfst : map fst curve = cs).
  { clear -HF. induction HF as [| c pt cs curve [Hf _] _ IH];
      [reflexivity |]. cbn [map]. now rewrite Hf, IH. }
  rewrite Hfst. repeat split; try assumption.
  - rewrite <- Hlen, <- Hfst. now rewrite length_map.
  - clear -HF. induction HF as [| c pt cs curve [Hf [x [Hx Hs]]] _ IH];
      constructor; [| exact IH].
    exists x. split; congruence.
Qed.

(** X18.  With [Ki = 0] and a finite [mu_max] the curve is still drawn, and it is
    a NaN at the concentration 0 followed by 99 zeros. *)
Theorem predicted_curve_zero_Ki m k :
  is_zero k = true -> is_finite m = true ->
  exists curve rest,
    predicted_curve m k = inr curve
    /\ map snd curve = NpFloat64 S754_nan :: rest
    /\ List.length rest = 99%nat
    /\ Forall (fun y => exists sign, y = NpFloat64 (S754_zero sign)) rest.
Proof.
  intros Hk Hm.
  destruct k as [sk | | |]; try discriminate.
  destruct m as [sm | | | sm mm em]; try discriminate.
  - eexists. eexists. split; [vm_compute; reflexivity |].
    split; [reflexivity |]. split; [reflexivity |].
    repeat constructor; eexists; reflexivity.
  - eexists. eexists. split; [vm_compute; reflexivity |].
    split; [reflexivity |]. split; [reflexivity |].
    repeat constructor; eexists; reflexivity.
Qed.

(** ** The window *)

Lemma cbind_run {A B : Type} (c : cmd A) (k : A -> cmd B) a x a' :
  c a = (inr x, a') -> cbind c k a = k x a'.
Proof. intros H. unfold cbind. now rewrite H. Qed.

Lemma cbind_raise {A B : Type} (c : cmd A) (k : A -> cmd B) a e a' :
  c a = (inl e, a') -> cbind c k a = (inl e, a').
Proof. intros H. unfold cbind. now rewrite H. Qed.

Lemma inhibition_panel_total title rows m k :
  exists p, inhibition_panel title rows m k = inr p.
Proof.
  unfold inhibition_panel.
  destruct (predicted_curve_returns m k) as [curve ->].
  cbn [bind format_f as_float ret]. eexists. reflexivity.
Qed.

Lemma update_inhibition_plot_run a :
  exists p1 p2,
    update_inhibition_plot a = (inr tt, with_fig_inhibition [p1; p2] a).
Proof.
  set (p := params (state a)).
  destruct (inhibition_panel_total "Compuesto 1 - Alta Actividad"
              experimental_compound1 (mu_max p) (Ki_comp1 p)) as [p1 H1].
  destruct (inhibition_panel_total "Compuesto 2 - Baja Actividad"
              experimental_compound2 (mu_max p) (Ki_comp2 p)) as [p2 H2].
  exists p1, p2.
  unfold update_inhibition_plot, cbind, modify, reading, lift.
  cbn [state with_fig_inhibition fig_inhibition]. fold p.
  rewrite H1, H2. reflexivity.
Qed.

Lemma update_kinetic_plot_run a :
  update_kinetic_plot exp_f64 log10_f64 a
  = match calculate_kinetic_data exp_f64 log10_f64 (state a) with
    | inl e => (inl e, a)
    | inr rows => (inr tt, with_fig_kinetic (Some rows) a)
    end.
Proof.
  unfold update_kinetic_plot, cbind, modify, reading, lift.
  destruct (calculate_kinetic_data exp_f64 log10_f64 (state a));
    reflexivity.
Qed.

Lemma update_comparison_plot_run a :
  exists c,
    update_comparison_plot a = (inr tt, with_fig_comparison (Some c) a).
Proof.
  set (p := params (state a)).
  destruct (predicted_curve_returns (mu_max p) (Ki_comp1 p)) as [c1 H1].
  destruct (predicted_curve_returns (mu_max p) (Ki_comp2 p)) as [c2 H2].
  eexists.
  unfold update_comparison_plot, cbind, modify, reading, lift.
  cbn [state with_fig_comparison]. fold p.
  rewrite H1, H2. reflexivity.
Qed.

Lemma update_results_returns self :
  exists r,
    update_results self
    = inr (mkModel (params self) (selected_compound self) r).
Proof.
  unfold update_results.
  destruct (SFltb (S754_zero false) (Ki_comp1 (params self))) eqn:H.
  - rewrite (relative_potency_positive _ _ H). eexists. reflexivity.
  - rewrite (relative_potency_sentinel _ _ H). eexists. reflexivity.
Qed.

Lemma update_results_cmd_run a :
  exists r,
    update_results (state a)
    = inr (mkModel (params (state a)) (selected_compound (state a)) r)
    /\ update_results_cmd a
       = (inr tt,
          with_state
            (mkModel (params (state a)) (selected_compound (state a)) r) a).
Proof.
  destruct (update_results_returns (state a)) as [r Hr].
  exists r. split; [exact Hr |].
  unfold update_results_cmd, cbind, modify, reading, lift.
  rewrite Hr. reflexivity.
Qed.

(** [update_plots] in closed form. *)
Lemma update_plots_run a :
  exists p1 p2,
    let a1 := with_fig_inhibition [p1; p2] a in
    match calculate_kinetic_data exp_f64 log10_f64 (state a) with
    | inl e =>
        update_plots exp_f64 log10_f64 a
        = (inr tt,
           show (ShowError "Error" "Error al actualizar gráficos: " e) a1)
    | inr rows =>
        exists c r,
          update_results (state a)
          = inr (mkModel (params (state a)) (selected_compound (state a)) r)
          /\ update_plots exp_f64 log10_f64 a
             = (inr tt,
                with_state
                  (mkModel (params (state a)) (selected_compound (state a)) r)
                  (with_fig_comparison (Some c)
                     (with_fig_kinetic (Some rows) a1)))
    end.
Proof.
  destruct (update_inhibition_plot_run a) as [p1 [p2 H1]].
  exists p1, p2. intros a1. fold a1 in H1.
  pose proof (update_kinetic_plot_run a1) as H2.
  change (state a1) with (state a) in H2.
  unfold update_plots, try_except.
  rewrite (cbind_run _ _ _ _ _ H1).
  destruct (calculate_kinetic_data exp_f64 log10_f64 (state a))
    as [e | rows].
  - rewrite (cbind_raise _ _ _ _ _ H2). reflexivity.
  - destruct (update_comparison_plot_run (with_fig_kinetic (Some rows) a1))
      as [c H3].
    destruct (update_results_cmd_run
                (with_fig_comparison (Some c)
                   (with_fig_kinetic (Some rows) a1))) as [r [Hr H4]].
    exists c, r. split; [exact Hr |].
    rewrite (cbind_run _ _ _ _ _ H2), (cbind_run _ _ _ _ _ H3), H4.
    reflexivity.
Qed.


(** What [update_plots] leaves alone. *)
Lemma update_plots_frame a :
  let a' := snd (update_plots exp_f64 log10_f64 a) in
  params (state a') = params (state a)
  /\ selected_compound (state a') = selected_compound (state a)
  /\ files a' = files a
  /\ update_timer a' = update_timer a
  /\ pending a' = pending a
  /\ next_timer a' = next_timer a.
Proof.
  destruct (update_plots_run a) as [p1 [p2 H]]. cbv zeta in H.
  destruct (calculate_kinetic_data exp_f64 log10_f64 (state a))
    as [e | rows].
  - rewrite H. cbn. repeat split; reflexivity.
  - destruct H as [c [r [_ H]]]. rewrite H. cbn. repeat split; reflexivity.
Qed.

(** ** Timers *)

Lemma on_parameter_change_debounced a :
  debounced a ->
  on_parameter_change a
  = (inr tt,
     with_timers (Some (next_timer a)) [next_timer a] (S (next_timer a)) a).
Proof.
  intros [Hp | [t [Hp Ht]]]; unfold on_parameter_change, modify.
  - rewrite Hp. destruct (update_timer a); reflexivity.
  - rewrite Hp, Ht. cbn [remove].
    destruct (Nat.eq_dec t t) as [_ | Hne]; [reflexivity | contradiction].
Qed.

Lemma debounced_with_timers t n a :
  debounced (with_timers (Some t) [t] n a).
Proof. right. exists t. split; reflexivity. Qed.

Lemma debounced_same_timers a a' :
  update_timer a' = update_timer a -> pending a' = pending a ->
  debounced a -> debounced a'.
Proof. unfold debounced. intros -> ->. exact (fun H => H). Qed.

Lemma set_parameter_run v a :
  debounced a ->
  set_parameter v a
  = (inr tt,
     with_timers (Some (next_timer a)) [next_timer a] (S (next_timer a))
       (with_state
          (mkModel (apply_setting v (params (state a)))
             (selected_compound (state a)) (results_vars (state a))) a)).
Proof.
  intros Hd. unfold set_parameter.
  erewrite cbind_run by (unfold modify; reflexivity).
  rewrite on_parameter_change_debounced; [reflexivity |].
  eapply debounced_same_timers; [| | exact Hd]; reflexivity.
Qed.

Lemma move_slider_run v a :
  debounced a ->
  handle exp_f64 log10_f64 (MoveSlider v) a
  = (inr tt,
     with_timers (Some (S (next_timer a))) [S (next_timer a)]
       (S (S (next_timer a)))
       (with_state
          (mkModel (apply_setting v (params (state a)))
             (selected_compound (state a)) (results_vars (state a))) a)).
Proof.
  intros Hd. cbn [handle].
  rewrite (cbind_run _ _ _ _ _ (set_parameter_run v a Hd)).
  rewrite on_parameter_change_debounced by apply debounced_with_timers.
  reflexivity.
Qed.

Lemma timer_due_run t a :
  handle exp_f64 log10_f64 (TimerDue t) a
  = if existsb (Nat.eqb t) (pending a)
    then update_plots exp_f64 log10_f64
           (with_timers (update_timer a) (remove Nat.eq_dec t (pending a))
              (next_timer a) a)
    else (inr tt, a).
Proof.
  cbn [handle]. unfold cbind at 1, reading.
  destruct (existsb (Nat.eqb t) (pending a)); reflexivity.
Qed.

Lemma for_each_set_parameter vs a :
  debounced a ->
  exists a',
    for_each set_parameter vs a = (inr tt, a')
    /\ debounced a'
    /\ params (state a')
       = fold_left (fun p v => apply_setting v p) vs (params (state a))
    /\ selected_compound (state a') = selected_compound (state a)
    /\ results_vars (state a') = results_vars (state a)
    /\ fig_inhibition a' = fig_inhibition a
    /\ fig_kinetic a' = fig_kinetic a
    /\ fig_comparison a' = fig_comparison a
    /\ dialogs a' = dialogs a
    /\ files a' = files a
    /\ (vs <> [] -> exists t, pending a' = [t] /\ update_timer a' = Some t).
Proof.
  revert a. induction vs as [| v vs IH]; intros a Hd.
  - exists a. cbn. repeat split; try assumption; try reflexivity.
    intros H. contradiction.
  - cbn [for_each].
    rewrite (cbind_run _ _ _ _ _ (set_parameter_run v a Hd)).
    destruct (IH _ (debounced_with_timers (next_timer a) (S (next_timer a))
                      (with_state
                         (mkModel (apply_setting v (params (state a)))
                            (selected_compound (state a))
                            (results_vars (state a))) a)))
      as [a' [Hrun [Hd' [Hp [Hs [Hr [H1 [H2 [H3 [H4 [H5 H6]]]]]]]]]]].
    exists a'. split; [exact Hrun |]. split; [exact Hd' |].
    repeat split; try assumption.
    intros _. destruct vs as [| v' vs'].
    + cbn in Hrun. injection Hrun as <-. eexists. split; reflexivity.
    + apply H6. discriminate.
Qed.

(** X20.  The debounce.  From the window as [__init__] leaves it, after any
    sequence of slider moves, choices of compound, button presses and
    timers coming due, at most one redraw is scheduled, and it is the one
    [_update_timer] names. *)
Theorem at_most_one_redraw_pending evs :
  debounced (run exp_f64 log10_f64 evs (started_app exp_f64 log10_f64)).
Proof.
  assert (Hstep : forall ev a,
            debounced a -> debounced (after_event exp_f64 log10_f64 a ev)).
  { intros ev a Hd. unfold after_event.
    destruct ev as [v | c | | | | t].
    - rewrite move_slider_run by exact Hd. apply debounced_with_timers.
    - cbn [handle]. unfold set_selected_compound, on_compound_change.
      erewrite cbind_run by (unfold modify; reflexivity).
      destruct (update_plots_frame
                  (with_state
                     (mkModel (params (state a)) c (results_vars (state a)))
                     a)) as [_ [_ [_ [Ht [Hp _]]]]].
      eapply debounced_same_timers; [exact Ht | exact Hp | exact Hd].
    - cbn [handle].
      destruct (update_plots_frame a) as [_ [_ [_ [Ht [Hp _]]]]].
      eapply debounced_same_timers; [exact Ht | exact Hp | exact Hd].
    - cbn [handle]. unfold reset_parameters.
      destruct (for_each_set_parameter defaults a Hd)
        as [a1 [Hrun [Hd1 _]]].
      rewrite (cbind_run _ _ _ _ _ Hrun).
      unfold set_selected_compound.
      erewrite cbind_run by (unfold modify; reflexivity).
      match goal with
      | |- debounced (snd (update_plots _ _ ?x)) =>
          destruct (update_plots_frame x) as [_ [_ [_ [Ht [Hp _]]]]]
      end.
      eapply debounced_same_timers; [exact Ht | exact Hp | exact Hd1].
    - cbn [handle]. unfold export_data, try_except, cbind, reading, lift,
        modify.
      destruct (calculate_kinetic_data exp_f64 log10_f64 (state a));
        exact Hd.
    - rewrite timer_due_run.
      destruct (existsb (Nat.eqb t) (pending a)) eqn:Hdue; [| exact Hd].
      match goal with
      | |- debounced (snd (update_plots _ _ ?x)) =>
          destruct (update_plots_frame x) as [_ [_ [_ [Ht [Hp _]]]]];
          eapply debounced_same_timers; [exact Ht | exact Hp |]
      end.
      destruct Hd as [Hp' | [t0 [Hp' Ht0]]].
      + rewrite Hp' in Hdue. discriminate.
      + left. cbn [pending with_timers]. rewrite Hp' in *.
        cbn [existsb] in Hdue. rewrite orb_false_r in Hdue.
        apply Nat.eqb_eq in Hdue. subst t0. cbn [remove].
        destruct (Nat.eq_dec t t); [reflexivity | contradiction]. }
  assert (Hinit : debounced (started_app exp_f64 log10_f64)).
  { unfold started_app.
    destruct (update_plots_frame blank_app) as [_ [_ [_ [_ [Hp _]]]]].
    left. exact Hp. }
  unfold run. revert Hinit.
  generalize (started_app exp_f64 log10_f64).
  induction evs as [| ev evs IH]; intros a Hd; [exact Hd |].
  cbn [fold_left]. apply IH. now apply Hstep.
Qed.

Lemma slider_moves_run vs a :
  debounced a ->
  let a' := run exp_f64 log10_f64 (map MoveSlider vs) a in
  debounced a'
  /\ params (state a')
     = fold_left (fun p v => apply_setting v p) vs (params (state a))
  /\ selected_compound (state a') = selected_compound (state a)
  /\ results_vars (state a') = results_vars (state a)
  /\ fig_inhibition a' = fig_inhibition a
  /\ fig_kinetic a' = fig_kinetic a
  /\ fig_comparison a' = fig_comparison a
  /\ dialogs a' = dialogs a
  /\ files a' = files a
  /\ (vs <> [] -> exists t, pending a' = [t] /\ update_timer a' = Some t).
Proof.
  revert a. induction vs as [| v vs IH]; intros a Hd.
  - cbn. repeat split; try assumption; try reflexivity.
    intros H. contradiction.
  - assert (Hev : after_event exp_f64 log10_f64 a (MoveSlider v)
                  = snd (handle exp_f64 log10_f64 (MoveSlider v) a))
      by reflexivity.
    rewrite (move_slider_run v a Hd) in Hev. cbn [snd] in Hev.
    cbv zeta. cbn [map run fold_left]. rewrite Hev.
    match goal with
    | |- context [fold_left _ _ ?x] =>
        assert (Hd1 : debounced x) by apply debounced_with_timers;
        destruct (IH x Hd1)
          as [Hd' [Hp [Hs [Hr [H1 [H2 [H3 [H4 [H5 H6]]]]]]]]]
    end.
    cbv zeta in *. unfold run in *.
    split; [exact Hd' |]. split; [exact Hp |]. split; [exact Hs |].
    split; [exact Hr |]. split; [exact H1 |]. split; [exact H2 |].
    split; [exact H3 |]. split; [exact H4 |]. split; [exact H5 |].
    intros _. destruct vs as [| v' vs'].
    + eexists. split; reflexivity.
    + apply H6. discriminate.
Qed.

(** X21.  A burst of slider moves draws nothing and shows nothing: it writes the
    parameters, in order, and leaves exactly one redraw scheduled, however
    many moves there were. *)
Theorem slider_moves_coalesce vs a :
  debounced a -> vs <> [] ->
  let a' := run exp_f64 log10_f64 (map MoveSlider vs) a in
  (exists t, pending a' = [t] /\ update_timer a' = Some t)
  /\ params (state a')
     = fold_left (fun p v => apply_setting v p) vs (params (state a))
  /\ results_vars (state a') = results_vars (state a)
  /\ fig_inhibition a' = fig_inhibition a
  /\ fig_kinetic a' = fig_kinetic a
  /\ fig_comparison a' = fig_comparison a
  /\ dialogs a' = dialogs a.
Proof.
  intros Hd Hvs.
  destruct (slider_moves_run vs a Hd)
    as [_ [Hp [_ [Hr [H1 [H2 [H3 [H4 [_ H6]]]]]]]]].
  cbv zeta. repeat split; try assumption. now apply H6.
Qed.

(** X22.  When the scheduled redraw comes due, [update_plots] runs once and no
    redraw is left scheduled; a timer that is not scheduled (a cancelled
    one) does nothing. *)
Theorem timer_due_redraws_once t a :
  debounced a ->
  (In t (pending a) ->
   after_event exp_f64 log10_f64 a (TimerDue t)
   = snd (update_plots exp_f64 log10_f64
            (with_timers (update_timer a) [] (next_timer a) a))
   /\ pending (after_event exp_f64 log10_f64 a (TimerDue t)) = [])
  /\ (~ In t (pending a) ->
      after_event exp_f64 log10_f64 a (TimerDue t) = a).
Proof.
  intros Hd. unfold after_event. rewrite timer_due_run. split.
  - intros Hin.
    destruct Hd as [Hp | [t0 [Hp Ht0]]]; rewrite Hp in Hin;
      [contradiction |].
    destruct Hin as [<- | []]. rewrite Hp. cbn [existsb remove].
    rewrite Nat.eqb_refl. cbn [orb].
    destruct (Nat.eq_dec t0 t0) as [_ | Hne]; [| contradiction].
    split; [reflexivity |].
    match goal with
    | |- pending (snd (update_plots _ _ ?x)) = _ =>
        destruct (update_plots_frame x) as [_ [_ [_ [_ [Hq _]]]]]
    end.
    exact Hq.
  - intros Hnot.
    destruct (existsb (Nat.eqb t) (pending a)) eqn:Hdue; [| reflexivity].
    apply existsb_exists in Hdue as [t' [Hin Heq]].
    apply Nat.eqb_eq in Heq. subst t'. contradiction.
Qed.

Lemma update_results_default r :
  update_results (mkModel default_parameters "compound1" r)
  = inr displayed_model.
Proof. vm_compute. reflexivity. Qed.

(** X23.  [reset_parameters], from any state of the window: the parameters, the
    selection and the four labels are those of a fresh start, the kinetic
    figure shows the 101 rows of the default series, no message box is
    shown, and one redraw is left scheduled by the eight writes. *)
Theorem reset_parameters_outcome a :
  debounced a ->
  let a' := snd (reset_parameters exp_f64 log10_f64 a) in
  state a' = displayed_model
  /\ (exists rows, fig_kinetic a' = Some rows /\ List.length rows = 101%nat)
  /\ dialogs a' = dialogs a
  /\ files a' = files a
  /\ exists t, pending a' = [t] /\ update_timer a' = Some t.
Proof.
  intros Hd. unfold reset_parameters.
  destruct (for_each_set_parameter defaults a Hd)
    as [a1 [Hrun [_ [Hp [_ [_ [_ [_ [_ [Hdlg [Hfiles Hone]]]]]]]]]]].
  destruct (Hone ltac:(discriminate)) as [t [Hpend Htimer]].
  rewrite (cbind_run _ _ _ _ _ Hrun).
  unfold set_selected_compound.
  erewrite cbind_run by (unfold modify; reflexivity).
  assert (Hdef : params (state a1) = default_parameters).
  { rewrite Hp. destruct (params (state a)). reflexivity. }
  rewrite Hdef.
  set (a2 := with_state
               (mkModel default_parameters "compound1"
                  (results_vars (state a1))) a1).
  destruct (calculate_kinetic_data_rows exp_f64 log10_f64 (state a2) _
              (eq_refl : time_array initial_model = inr _))
    as [rows [Hrows Htimes]].
  assert (Hlen : List.length rows = 101%nat).
  { apply (f_equal (@List.length num)) in Htimes.
    rewrite length_map in Htimes. rewrite Htimes. vm_compute. reflexivity. }
  destruct (update_plots_run a2) as [p1 [p2 H]]. cbv zeta in H.
  rewrite Hrows in H. destruct H as [c [r [Hr H]]].
  rewrite H. cbn [snd].
  change (state a2)
    with (mkModel default_parameters "compound1" (results_vars (state a1)))
    in Hr.
  rewrite update_results_default in Hr. injection Hr as Hr.
  cbn. rewrite <- Hr.
  split; [reflexivity |].
  split; [exists rows; split; [reflexivity | exact Hlen] |].
  split; [exact Hdlg |]. split; [exact Hfiles |].
  exists t. split; assumption.
Qed.



(** X25.  Only a slider move or the reset button changes a parameter: a choice
    of compound, the update and export buttons and a timer coming due leave
    all eight as they are. *)
Theorem parameters_change_only_by_slider_or_reset ev a :
  (forall v, ev <> MoveSlider v) -> ev <> PressReset ->
  params (state (after_event exp_f64 log10_f64 a ev)) = params (state a).
Proof.
  intros Hmove Hreset. unfold after_event.
  destruct ev as [v | c | | | | t].
  - now elim (Hmove v).
  - cbn [handle]. unfold set_selected_compound, on_compound_change.
    erewrite cbind_run by (unfold modify; reflexivity).
    match goal with
    | |- params (state (snd (update_plots _ _ ?x))) = _ =>
        destruct (update_plots_frame x) as [Hp _]; rewrite Hp
    end.
    reflexivity.
  - cbn [handle]. now destruct (update_plots_frame a) as [Hp _].
  - contradiction.
  - cbn [handle]. unfold export_data, try_except, cbind, reading, lift,
      modify.
    destruct (calculate_kinetic_data exp_f64 log10_f64 (state a));
      reflexivity.
  - rewrite timer_due_run.
    destruct (existsb (Nat.eqb t) (pending a)); [| reflexivity].
    match goal with
    | |- params (state (snd (update_plots _ _ ?x))) = _ =>
        destruct (update_plots_frame x) as [Hp _]; rewrite Hp
    end.
    reflexivity.
Qed.

End PyMore.

(** * The further facts at concrete inputs *)

Section MoreWitnesses.

Import Py.

(** The slider range at the initial parameters, 100 points: 101 rows. *)
Lemma calculate_kinetic_data_on_slider_range_witness :
  (50 <= time_points (params initial_model) <= 200)%Z
  /\ exists rows,
       calculate_kinetic_data (fun x => x) (fun x => x) initial_model
       = inr rows
       /\ Z.of_nat (List.length rows) = 101%Z.
Proof.
  assert (H : (50 <= time_points (params initial_model) <= 200)%Z)
    by (split; discriminate).
  split; [exact H |].
  destruct (calculate_kinetic_data_on_slider_range (fun x => x) (fun x => x)
              initial_model H) as [rows [Hrows [Hlen _]]].
  exists rows. split; [exact Hrows | exact Hlen].
Defined.

(** An empty selection is read as the second compound. *)
Lemma calculate_kinetic_data_other_selection_witness :
  ""%string <> "compound1"%string
  /\ calculate_kinetic_data (fun x => x) (fun x => x)
       (mkModel default_parameters "" (mkResults "" "" "" ""))
     = calculate_kinetic_data (fun x => x) (fun x => x)
         (mkModel default_parameters "compound2" (mkResults "" "" "" "")).
Proof.
  assert (H : ""%string <> "compound1"%string) by discriminate.
  split; [exact H |].
  exact (calculate_kinetic_data_other_selection (fun x => x) (fun x => x)
           initial_model "" H).
Defined.

(** A row at time 1 with [Ki_comp1 = 0.0]; the identity stands for the
    elementary functions, which keeps the concentration away from zero. *)
Lemma sample_at_zero_Ki_witness :
  exists s sign,
    sample_at (fun x => x) (fun x => x)
      (set_Ki_comp1 (S754_zero false) initial_model) (NpFloat64 (of_int 1))
    = inr s
    /\ mu s = NpFloat64 (S754_zero sign)
    /\ raw_biomass s
       = NpFloat64 (fmul (of_int 1000000) (fmul (fopp (dec 1 1)) (of_int 1))).
Proof.
  exact (sample_at_zero_Ki (fun x => x) (fun x => x)
           (set_Ki_comp1 (S754_zero false) initial_model) (of_int 1)
           eq_refl eq_refl eq_refl eq_refl).
Defined.

(** The labels with [Ki_comp1 = -1.0]: the potency shown is [0.0]. *)
Lemma update_results_total_witness :
  SFltb (S754_zero false) (of_int (-1)) = false
  /\ exists r,
       update_results (set_Ki_comp1 (of_int (-1)) initial_model)
       = inr (mkModel (params (set_Ki_comp1 (of_int (-1)) initial_model))
                "compound1" r)
       /\ potencia_rel r = "Potencia relativa: 0.0x"%string.
Proof.
  split; [reflexivity |].
  destruct (update_results_total (set_Ki_comp1 (of_int (-1)) initial_model))
    as [r [Hr Hs]].
  exists r. split; [exact Hr |]. exact (proj1 (Hs eq_refl)).
Defined.

(** The curve at [mu_max = 0.95] and [Ki = 0.0]. *)
Lemma predicted_curve_zero_Ki_witness :
  is_zero (S754_zero false) = true /\ is_finite (dec 95 2) = true
  /\ exists curve rest,
       predicted_curve (dec 95 2) (S754_zero false) = inr curve
       /\ map snd curve = NpFloat64 S754_nan :: rest
       /\ List.length rest = 99%nat.
Proof.
  split; [reflexivity | split; [reflexivity |]].
  destruct (predicted_curve_zero_Ki (dec 95 2) (S754_zero false)
              eq_refl eq_refl) as [curve [rest [Hc [Hs [Hl _]]]]].
  exists curve, rest. repeat split; assumption.
Defined.

Lemma debounced_blank_app : debounced blank_app.
Proof. left. reflexivity. Defined.

(** Two slider moves in the blank window: one redraw scheduled. *)
Lemma slider_moves_coalesce_witness :
  debounced blank_app
  /\ [Set_ka (dec 2 1); Set_ke (dec 1 1)] <> []
  /\ exists t,
       pending (run (fun x => x) (fun x => x)
                  (map MoveSlider [Set_ka (dec 2 1); Set_ke (dec 1 1)])
                  blank_app) = [t].
Proof.
  assert (H : [Set_ka (dec 2 1); Set_ke (dec 1 1)] <> []) by discriminate.
  split; [exact debounced_blank_app | split; [exact H |]].
  destruct (slider_moves_coalesce (fun x => x) (fun x => x) _ blank_app
              debounced_blank_app H) as [[t [Ht _]] _].
  exists t. exact Ht.
Defined.

(** The timer 1, scheduled in the blank window, comes due. *)
Lemma timer_due_redraws_once_witness :
  debounced (with_timers (Some 1%nat) [1%nat] 2%nat blank_app)
  /\ In 1%nat (pending (with_timers (Some 1%nat) [1%nat] 2%nat blank_app))
  /\ pending (after_event (fun x => x) (fun x => x)
                (with_timers (Some 1%nat) [1%nat] 2%nat blank_app)
                (TimerDue 1%nat)) = [].
Proof.
  assert (Hd : debounced (with_timers (Some 1%nat) [1%nat] 2%nat blank_app))
    by (right; exists 1%nat; split; reflexivity).
  assert (Hin : In 1%nat
                  (pending (with_timers (Some 1%nat) [1%nat] 2%nat blank_app)))
    by (left; reflexivity).
  split; [exact Hd | split; [exact Hin |]].
  destruct (timer_due_redraws_once (fun x => x) (fun x => x) 1%nat _ Hd)
    as [H _].
  exact (proj2 (H Hin)).
Defined.

(** Reset in the blank window. *)
Lemma reset_parameters_outcome_witness :
  debounced blank_app
  /\ state (snd (reset_parameters (fun x => x) (fun x => x) blank_app))
     = displayed_model.
Proof.
  split; [exact debounced_blank_app |].
  destruct (reset_parameters_outcome (fun x => x) (fun x => x) blank_app
              debounced_blank_app) as [H _].
  exact H.
Defined.

(** The update button in the blank window changes no parameter. *)
Lemma parameters_change_only_by_slider_or_reset_witness :
  (forall v, PressUpdate <> MoveSlider v) /\ PressUpdate <> PressReset
  /\ params (state (after_event (fun x => x) (fun x => x) blank_app
                      PressUpdate))
     = default_parameters.
Proof.
  assert (H1 : forall v, PressUpdate <> MoveSlider v)
    by (intros v; discriminate).
  assert (H2 : PressUpdate <> PressReset) by discriminate.
  split; [exact H1 | split; [exact H2 |]].
  exact (parameters_change_only_by_slider_or_reset (fun x => x) (fun x => x)
           PressUpdate blank_app H1 H2).
Defined.

Import Ideal.
Local Open Scope R_scope.










End MoreWitnesses.
